(** * orx-docs: the presentational card component and the theme configuration

    A shallow embedding of the two TypeScript/JSX modules of the site,
    [src/components/link-card.tsx] and [src/theme.config.tsx], and the
    properties of the element trees they build.

    JSX is embedded the way [React.createElement (type, props, ...children)]
    builds it: an element is its type, its attributes in source order and
    its child nodes.  The system clock read by [new Date()] is an explicit
    argument of the module that reads it. *)

From Stdlib Require Import List String Ascii ZArith QArith Lia Bool.
Import ListNotations.

Set Warnings "-register-all".

Local Open Scope string_scope.
Local Open Scope list_scope.

(** ** JSX element trees *)

Module Jsx.

(** What stands in the type position of an element: a lower-case
    intrinsic tag ([svg], [path], [link], [meta]), a component imported
    from another package ([Card], [Cards], [Image]), or the fragment
    [<>...</>]. *)
Inductive ElementType : Type :=
| Intrinsic (tag : string)
| Imported (package name : string)
| Fragment.

(** The values the two modules put in attribute and child positions:
    [null], a string, a number, or an element.  [undefined] is the
    absence of a value and is modelled with [option] where it can occur. *)
Inductive ReactNode : Type :=
| RNull
| RString (s : string)
| RNumber (q : Q)
| RElement (type : ElementType)
           (props : list (string * ReactNode))
           (children : list ReactNode).

Definition ElementType_eqb (a b : ElementType) : bool :=
  match a, b with
  | Intrinsic x, Intrinsic y => String.eqb x y
  | Imported p x, Imported q y => String.eqb p q && String.eqb x y
  | Fragment, Fragment => true
  | _, _ => false
  end.

Definition type_of (n : ReactNode) : option ElementType :=
  match n with
  | RElement t _ _ => Some t
  | _ => None
  end.

Definition props_of (n : ReactNode) : list (string * ReactNode) :=
  match n with
  | RElement _ ps _ => ps
  | _ => []
  end.

Definition children_of (n : ReactNode) : list ReactNode :=
  match n with
  | RElement _ _ cs => cs
  | _ => []
  end.

(** Attribute lookup.  Attributes become the keys of one props object, so
    of two attributes with one name the later one is the one kept. *)
Definition lookup (name : string) (ps : list (string * ReactNode))
  : option ReactNode :=
  fold_left
    (fun found kv => if String.eqb (fst kv) name then Some (snd kv) else found)
    ps None.

Definition prop (name : string) (n : ReactNode) : option ReactNode :=
  lookup name (props_of n).

(** What a node contributes to its parent's output: [null] contributes
    nothing, a fragment contributes what its children contribute, any
    other node contributes itself. *)
Fixpoint expand (n : ReactNode) : list ReactNode :=
  match n with
  | RNull => []
  | RElement Fragment _ cs => flat_map expand cs
  | _ => [n]
  end.

(** Number of elements of type [t] anywhere in a tree, attribute values
    included. *)
Fixpoint count_type (t : ElementType) (n : ReactNode) : nat :=
  match n with
  | RElement ty ps cs =>
      (if ElementType_eqb ty t then 1 else 0)
      + list_sum (map (fun kv => count_type t (snd kv)) ps)
      + list_sum (map (count_type t) cs)
  | _ => 0
  end.

(** Number of elements of type [t] among a list of sibling nodes. *)
Definition count_among (t : ElementType) (ns : list ReactNode) : nat :=
  List.length
    (filter (fun n => match type_of n with
                      | Some ty => ElementType_eqb ty t
                      | None => false
                      end) ns).

End Jsx.

(** ** src/components/link-card.tsx *)

Module Components.
Import Jsx.

(** [import { Card, Cards } from "nextra-theme-docs"] *)
Definition Card : ElementType := Imported "nextra-theme-docs" "Card".
Definition Cards : ElementType := Imported "nextra-theme-docs" "Cards".

Definition defaultIcon : ReactNode :=
  RElement (Intrinsic "svg")
    [ ("xmlns", RString "http://www.w3.org/2000/svg");
      ("fill", RString "none");
      ("viewBox", RString "0 0 24 24");
      ("strokeWidth", RNumber (3 # 2));
      ("stroke", RString "currentColor");
      ("className", RString "w-6 h-6") ]
    [ RElement (Intrinsic "path")
        [ ("strokeLinecap", RString "round");
          ("strokeLinejoin", RString "round");
          ("d", RString "M8.25 4.5l7.5 7.5-7.5 7.5") ]
        [] ].

(** The props object [{ icon?: React.ReactNode; path: string; title: string }].
    [icon = None] is an [icon] that is omitted (or [undefined]). *)
Record LinkCardProps : Type := mkProps {
  icon : option ReactNode;
  path : string;
  title : string
}.

(** The destructuring default [icon = defaultIcon]: it applies when the
    property is [undefined] and not when it is [null]. *)
Definition icon_or_default (i : option ReactNode) : ReactNode :=
  match i with
  | Some given => given
  | None => defaultIcon
  end.

Definition LinkCard (props : LinkCardProps) : ReactNode :=
  let icon := icon_or_default props.(icon) in
  let path := props.(path) in
  let title := props.(title) in
  RElement Cards []
    [ RElement Card
        [ ("icon", icon); ("title", RString title); ("href", RString path) ]
        [ RElement Fragment [] [] ] ].

(** The one child of the [Cards] container of a rendered tree, and the
    attributes that child was given. *)
Definition card_of (tree : ReactNode) : ReactNode :=
  hd RNull (children_of tree).

Definition card_attribute (name : string) (props : LinkCardProps)
  : option ReactNode :=
  prop name (card_of (LinkCard props)).

End Components.

(** ** The host: numbers as strings, and the clock *)

Module Host.

Local Open Scope Z_scope.

(** The decimal digit [d] (between 0 and 9) as a character. *)
Definition digit_char (d : Z) : ascii := ascii_of_nat (48 + Z.to_nat d).

(** The decimal digits of a non-negative integer, least significant
    first; [fuel] bounds the number of digits produced. *)
Fixpoint digits_le (fuel : nat) (n : Z) : list Z :=
  match fuel with
  | O => []
  | S fuel' =>
      (n mod 10) :: (if n <? 10 then [] else digits_le fuel' (n / 10))
  end.

(** A non-negative integer has no more decimal digits than binary ones. *)
Definition digit_fuel (n : Z) : nat := S (Z.to_nat (Z.log2 n)).

Definition digits_string (n : Z) : string :=
  string_of_list_ascii (map digit_char (rev (digits_le (digit_fuel n) n))).

(** [Number.prototype.toString] (the conversion a template literal
    applies to [${...}]) on an integer: its decimal digits, after a
    minus sign when it is negative. *)
Definition NumberToString (n : Z) : string :=
  if n <? 0 then String "-" (digits_string (- n)) else digits_string n.

(** Reading a decimal string back, for stating that [NumberToString]
    loses nothing: a minus sign flips the sign, a digit extends the
    magnitude. *)
Definition parse_step (st : Z * Z) (c : ascii) : Z * Z :=
  if Ascii.eqb c "-"%char then (- fst st, snd st)
  else (fst st, 10 * snd st + (Z.of_nat (nat_of_ascii c) - 48)).

Definition parse_int (s : string) : Z :=
  let st := fold_left parse_step (list_ascii_of_string s) (1, 0) in
  fst st * snd st.

(** The characters ["0"] to ["9"]. *)
Definition is_digit (c : ascii) : bool :=
  (48 <=? nat_of_ascii c)%nat && (nat_of_ascii c <=? 57)%nat.

(** A [Date] object, as far as the site reads one: [getFullYear ()] is
    its calendar year in local time. *)
Record Date : Type := mkDate { getFullYear : Z }.

End Host.

(** ** src/theme.config.tsx *)

Module ThemeConfig.
Import Jsx Host.

(** [import Image from "next/image"] *)
Definition Image : ElementType := Imported "next/image" "default".

(** The object [useNextSeoProps] returns. *)
Record NextSeoProps : Type := mkSeo { titleTemplate : string }.

(** The fields of [DocsThemeConfig] the module sets.  [project], [chat]
    and [footer] are objects with the one field shown. *)
Record Link : Type := mkLink { link : string }.
Record Footer : Type := mkFooter { text : string }.

Record DocsThemeConfig : Type := mkConfig {
  logo : ReactNode;
  project : Link;
  chat : Link;
  docsRepositoryBase : string;
  footer : Footer;
  head : ReactNode;
  useNextSeoProps : unit -> NextSeoProps
}.

(** The module's default export.  The object literal is evaluated once,
    when the module is; [now] is the value of [new Date()] at that time. *)
Definition config (now : Date) : DocsThemeConfig :=
  {| logo :=
       RElement Image
         [ ("src", RString "/logo.png");
           ("width", RString "120");
           ("height", RString "50");
           ("alt", RString "ORX API Logo") ]
         [];
     project := {| link := "https://github.com/ndcsol" |};
     chat := {| link := "https://discord.com" |};
     docsRepositoryBase := "https://github.com/ndcsol/orx-docs";
     footer :=
       {| text := "ORX Travel API " ++ NumberToString (getFullYear now) |};
     head :=
       RElement Fragment []
         [ RElement (Intrinsic "link")
             [ ("rel", RString "icon"); ("href", RString "/favicon.png") ] [];
           RElement (Intrinsic "meta")
             [ ("name", RString "viewport");
               ("content", RString "width=device-width, initial-scale=1") ] [];
           RElement (Intrinsic "meta")
             [ ("name", RString "description");
               ("content", RString "ORX API Documentation") ] [] ];
     useNextSeoProps := fun _ => {| titleTemplate := "%s - ORX API" |}
  |}.

End ThemeConfig.

Import Jsx Components Host ThemeConfig.

(** ** Decimal rendering of integers *)

Section Decimal.

Local Open Scope Z_scope.

Lemma digits_le_range (fuel : nat) :
  forall n, Forall (fun d => 0 <= d < 10) (digits_le fuel n).
Proof.
  induction fuel as [|fuel IH]; intros n; simpl.
  - constructor.
  - constructor.
    + apply Z.mod_pos_bound; lia.
    + destruct (n <? 10); [constructor | apply IH].
Qed.

(** With enough fuel the digits denote the number they were taken from. *)
Lemma digits_le_value (fuel : nat) :
  forall n, 0 <= n < 10 ^ Z.of_nat fuel ->
            fold_right (fun d v => d + 10 * v) 0 (digits_le fuel n) = n.
Proof.
  induction fuel as [|fuel IH]; intros n Hn.
  - change (10 ^ Z.of_nat 0) with 1 in Hn. simpl. lia.
  - cbn [digits_le fold_right].
    destruct (Z.ltb_spec n 10) as [Hlt|Hge].
    + simpl. rewrite Z.mod_small; lia.
    + rewrite IH.
      * pose proof (Z.div_mod n 10). lia.
      * rewrite Nat2Z.inj_succ, Z.pow_succ_r in Hn by lia.
        split; [apply Z.div_pos; lia | apply Z.div_lt_upper_bound; lia].
Qed.

Lemma digit_fuel_enough (n : Z) : 0 <= n -> n < 10 ^ Z.of_nat (digit_fuel n).
Proof.
  intros Hn. unfold digit_fuel.
  rewrite Nat2Z.inj_succ, Z2Nat.id by apply Z.log2_nonneg.
  destruct (Z.eq_dec n 0) as [->|Hnz].
  - simpl. lia.
  - assert (Hlog : n < 2 ^ Z.succ (Z.log2 n)) by (apply Z.log2_spec; lia).
    assert (Hpow : 2 ^ Z.succ (Z.log2 n) <= 10 ^ Z.succ (Z.log2 n)).
    { apply Z.pow_le_mono_l. lia. }
    lia.
Qed.

Lemma parse_digits (ds : list Z) :
  Forall (fun d => 0 <= d < 10) ds ->
  forall sg v,
    fold_left parse_step (map digit_char ds) (sg, v)
    = (sg, fold_left (fun acc d => 10 * acc + d) ds v).
Proof.
  induction 1 as [|d ds Hd _ IH]; intros sg v; simpl.
  - reflexivity.
  - replace (parse_step (sg, v) (digit_char d)) with (sg, 10 * v + d).
    + apply IH.
    + assert (Hcases : d = 0 \/ d = 1 \/ d = 2 \/ d = 3 \/ d = 4 \/ d = 5
                       \/ d = 6 \/ d = 7 \/ d = 8 \/ d = 9) by lia.
      repeat (destruct Hcases as [->|Hcases]; [reflexivity|]).
      subst d. reflexivity.
Qed.

Lemma parse_digits_string (n sg : Z) : 0 <= n ->
  fold_left parse_step (list_ascii_of_string (digits_string n)) (sg, 0)
  = (sg, n).
Proof.
  intros Hn. unfold digits_string.
  rewrite list_ascii_of_string_of_list_ascii.
  rewrite parse_digits by (apply Forall_rev, digits_le_range).
  f_equal.
  rewrite <- fold_left_rev_right, rev_involutive.
  etransitivity;
    [| exact (digits_le_value (digit_fuel n) n
                (conj Hn (digit_fuel_enough n Hn)))].
  generalize (digits_le (digit_fuel n) n). clear.
  induction l as [|d ds IHds]; cbn [fold_right].
  - reflexivity.
  - rewrite IHds. lia.
Qed.

Lemma parse_NumberToString (n : Z) : parse_int (NumberToString n) = n.
Proof.
  unfold parse_int, NumberToString.
  destruct (Z.ltb_spec n 0) as [Hneg|Hpos].
  - assert (Hsign :
        fold_left parse_step
          (list_ascii_of_string (String "-" (digits_string (- n)))) (1, 0)
        = fold_left parse_step
            (list_ascii_of_string (digits_string (- n))) (-1, 0))
      by reflexivity.
    rewrite Hsign, parse_digits_string by lia.
    cbn [fst snd]. lia.
  - rewrite parse_digits_string by assumption.
    cbn [fst snd]. lia.
Qed.

Lemma NumberToString_inj (m n : Z) :
  NumberToString m = NumberToString n -> m = n.
Proof.
  intros H. rewrite <- (parse_NumberToString m), <- (parse_NumberToString n).
  now rewrite H.
Qed.

Lemma digits_le_length (k : nat) :
  forall fuel n,
    (k < fuel)%nat -> 0 <= n ->
    (k = 0%nat \/ 10 ^ Z.of_nat k <= n) -> n < 10 ^ Z.of_nat (S k) ->
    List.length (digits_le fuel n) = S k.
Proof.
  induction k as [|k IH]; intros fuel n Hfuel Hn Hlo Hhi;
    (destruct fuel as [|fuel]; [lia|]); cbn [digits_le List.length]; f_equal.
  - change (10 ^ Z.of_nat 1) with 10 in Hhi.
    destruct (Z.ltb_spec n 10); [reflexivity | lia].
  - destruct Hlo as [Hk|Hlo]; [discriminate|].
    rewrite Nat2Z.inj_succ, Z.pow_succ_r in Hlo by lia.
    rewrite (Nat2Z.inj_succ (S k)), Z.pow_succ_r in Hhi by lia.
    assert (Hpos : 0 < 10 ^ Z.of_nat k) by (apply Z.pow_pos_nonneg; lia).
    destruct (Z.ltb_spec n 10); [lia|].
    apply IH.
    + lia.
    + apply Z.div_pos; lia.
    + right. apply Z.div_le_lower_bound; lia.
    + apply Z.div_lt_upper_bound; lia.
Qed.

Lemma string_of_list_ascii_length (l : list ascii) :
  String.length (string_of_list_ascii l) = List.length l.
Proof.
  induction l as [|c l IH]; simpl; [reflexivity | now rewrite IH].
Qed.

(** A number between [10^k] and [10^(k+1) - 1] is written with [k + 1]
    characters. *)
Lemma NumberToString_length (k : nat) (n : Z) :
  10 ^ Z.of_nat k <= n < 10 ^ Z.of_nat (S k) ->
  String.length (NumberToString n) = S k.
Proof.
  intros [Hlo Hhi].
  assert (Hpos : 0 < 10 ^ Z.of_nat k) by (apply Z.pow_pos_nonneg; lia).
  unfold NumberToString.
  destruct (Z.ltb_spec n 0); [lia|].
  unfold digits_string.
  rewrite string_of_list_ascii_length, length_map, length_rev.
  apply digits_le_length; try lia.
  unfold digit_fuel.
  assert (Hlog : Z.of_nat k <= Z.log2 n).
  { apply Z.log2_le_pow2; [lia|].
    assert (2 ^ Z.of_nat k <= 10 ^ Z.of_nat k)
      by (apply Z.pow_le_mono_l; lia).
    lia. }
  lia.
Qed.

Lemma is_digit_digit_char (d : Z) : 0 <= d < 10 -> is_digit (digit_char d) = true.
Proof.
  intros Hd.
  assert (Hcases : d = 0 \/ d = 1 \/ d = 2 \/ d = 3 \/ d = 4 \/ d = 5
                   \/ d = 6 \/ d = 7 \/ d = 8 \/ d = 9) by lia.
  repeat (destruct Hcases as [->|Hcases]; [reflexivity|]).
  subst d. reflexivity.
Qed.

Lemma digit_char_zero (d : Z) : 0 <= d < 10 -> digit_char d = "0"%char -> d = 0.
Proof.
  intros Hd.
  assert (Hcases : d = 0 \/ d = 1 \/ d = 2 \/ d = 3 \/ d = 4 \/ d = 5
                   \/ d = 6 \/ d = 7 \/ d = 8 \/ d = 9) by lia.
  repeat (destruct Hcases as [->|Hcases]; [first [reflexivity | discriminate]|]).
  subst d. discriminate.
Qed.

(** The most significant digit comes last in [digits_le]; it is zero only
    for the number zero, which has that one digit. *)
Lemma digits_le_leading (fuel : nat) :
  forall n, 0 <= n < 10 ^ Z.of_nat (S fuel) ->
    exists d ds,
      rev (digits_le (S fuel) n) = d :: ds
      /\ (d = 0 -> n = 0 /\ ds = []).
Proof.
  induction fuel as [|fuel IH]; intros n Hn.
  - change (10 ^ Z.of_nat 1) with 10 in Hn.
    cbn [digits_le]. destruct (Z.ltb_spec n 10); [|lia].
    exists (n mod 10), []. split; [reflexivity|].
    rewrite Z.mod_small by lia. auto.
  - remember (S fuel) as fuel1 eqn:Hfuel1.
    cbn [digits_le].
    destruct (Z.ltb_spec n 10) as [Hlt|Hge].
    + exists (n mod 10), []. split; [reflexivity|].
      rewrite Z.mod_small by lia. auto.
    + rewrite Nat2Z.inj_succ, Z.pow_succ_r in Hn by lia.
      destruct (IH (n / 10)) as (d & ds & Hrev & Hzero).
      { subst fuel1.
        split; [apply Z.div_pos; lia | apply Z.div_lt_upper_bound; lia]. }
      exists d, (ds ++ [n mod 10]).
      subst fuel1. cbn [rev]. rewrite Hrev. split; [reflexivity|].
      intros Hd. destruct (Hzero Hd) as [Hdiv _].
      assert (1 <= n / 10) by (apply Z.div_le_lower_bound; lia).
      lia.
Qed.

(** The digits written for a number that is not negative: at least one,
    decimal digits only, a leading zero only for the number zero, and
    read back they give the number. *)
Lemma digits_string_canonical (n : Z) :
  0 <= n ->
  exists c rest,
    digits_string n = String c rest
    /\ forallb is_digit (c :: list_ascii_of_string rest) = true
    /\ (c = "0"%char -> n = 0 /\ rest = ""%string)
    /\ parse_int (String c rest) = n.
Proof.
  intros Hn.
  assert (Hrange : Forall (fun d => 0 <= d < 10) (rev (digits_le (digit_fuel n) n)))
    by apply Forall_rev, digits_le_range.
  destruct (digits_le_leading (Z.to_nat (Z.log2 n)) n) as (d & ds & Hrev & Hzero).
  { split; [assumption | apply (digit_fuel_enough n Hn)]. }
  fold (digit_fuel n) in Hrev. rewrite Hrev in Hrange.
  assert (Hstr : digits_string n
                 = String (digit_char d) (string_of_list_ascii (map digit_char ds))).
  { unfold digits_string. now rewrite Hrev. }
  exists (digit_char d), (string_of_list_ascii (map digit_char ds)).
  inversion Hrange as [|d0 ds0 Hd Hds]; subst.
  split; [exact Hstr|].
  split.
  { rewrite list_ascii_of_string_of_list_ascii. cbn [forallb].
    rewrite is_digit_digit_char by assumption. cbn [andb].
    apply forallb_forall. intros c Hc. apply in_map_iff in Hc.
    destruct Hc as (e & <- & He). apply is_digit_digit_char.
    rewrite Forall_forall in Hds. now apply Hds. }
  split.
  { intros Hc. apply digit_char_zero in Hc; [|assumption].
    destruct (Hzero Hc) as [-> ->]. split; reflexivity. }
  rewrite <- Hstr. unfold parse_int.
  rewrite (parse_digits_string n 1 Hn). cbn [fst snd]. lia.
Qed.

(** Every positive number lies between two consecutive powers of ten. *)
Lemma decimal_magnitude (n : Z) :
  1 <= n -> exists k : nat, 10 ^ Z.of_nat k <= n < 10 ^ Z.of_nat (S k).
Proof.
  intros Hn.
  assert (Hgen : forall fuel : nat, n < 10 ^ Z.of_nat fuel ->
                   exists k : nat, 10 ^ Z.of_nat k <= n < 10 ^ Z.of_nat (S k)).
  { induction fuel as [|fuel IH]; intros Hlt.
    - change (10 ^ Z.of_nat 0) with 1 in Hlt. lia.
    - destruct (Z_lt_le_dec n (10 ^ Z.of_nat fuel)) as [Hsmall|Hbig].
      + apply IH, Hsmall.
      + exists fuel. split; assumption. }
  apply (Hgen (digit_fuel n)), digit_fuel_enough. lia.
Qed.

(** Four digits are written for the numbers from 1000 to 9999 and for no
    other. *)
Lemma digits_string_four (n : Z) :
  0 <= n ->
  (String.length (digits_string n) = 4%nat <-> 1000 <= n <= 9999).
Proof.
  intros Hn.
  assert (Hlen : forall k : nat,
             10 ^ Z.of_nat k <= n < 10 ^ Z.of_nat (S k) ->
             String.length (digits_string n) = S k).
  { intros k Hk. rewrite <- (NumberToString_length k n Hk).
    unfold NumberToString. destruct (Z.ltb_spec n 0); [lia | reflexivity]. }
  split.
  - intros Hfour.
    destruct (Z.eq_dec n 0) as [->|Hnz]; [discriminate Hfour|].
    destruct (decimal_magnitude n) as [k Hk]; [lia|].
    rewrite (Hlen k Hk) in Hfour.
    assert (k = 3%nat) by lia. subst k.
    change (10 ^ Z.of_nat 3) with 1000 in Hk.
    change (10 ^ Z.of_nat 4) with 10000 in Hk. lia.
  - intros Hy. apply (Hlen 3%nat).
    change (10 ^ Z.of_nat 3) with 1000. change (10 ^ Z.of_nat 4) with 10000.
    lia.
Qed.

End Decimal.

(** ** The link card *)

Section LinkCardFacts.

Lemma defaultIcon_has_no_card : count_type Card defaultIcon = 0%nat.
Proof. reflexivity. Qed.

Lemma LinkCard_count_cards (props : LinkCardProps) :
  count_type Card (LinkCard props)
  = S (count_type Card (icon_or_default (icon props))).
Proof.
  unfold LinkCard. cbn [count_type map list_sum snd].
  change (ElementType_eqb Cards Card) with false.
  change (ElementType_eqb Card Card) with true.
  change (ElementType_eqb Fragment Card) with false.
  cbn [list_sum fold_right]. lia.
Qed.

(** C8.  For every path and title (and whatever the icon), [LinkCard]
    returns a [Cards] container without attributes whose child list is one
    [Card]; that card's [href] is the path and its [title] the title; its
    only child is the empty fragment, which contributes no node.  The
    container holds one card, and the whole tree holds no card besides it
    except those inside an icon the caller passed: with the default icon
    there is exactly one. *)
Theorem LinkCard_renders_one_card (i : option ReactNode) (p t : string) :
  let tree := LinkCard {| icon := i; path := p; title := t |} in
  exists card,
    tree = RElement Cards [] [card]
    /\ type_of card = Some Card
    /\ prop "href" card = Some (RString p)
    /\ prop "title" card = Some (RString t)
    /\ children_of card = [RElement Fragment [] []]
    /\ flat_map expand (children_of card) = []
    /\ count_among Card (children_of tree) = 1%nat
    /\ count_type Card tree = S (count_type Card (icon_or_default i))
    /\ count_type Card (LinkCard {| icon := None; path := p; title := t |})
       = 1%nat.
Proof.
  intros tree. subst tree.
  eexists. split; [reflexivity|].
  do 6 (split; [reflexivity|]).
  split.
  - apply (LinkCard_count_cards {| icon := i; path := p; title := t |}).
  - rewrite LinkCard_count_cards. cbn [icon icon_or_default].
    now rewrite defaultIcon_has_no_card.
Qed.


Example LinkCard_null_icon_is_kept :
  card_attribute "icon" {| icon := Some RNull; path := "/a"; title := "A" |}
  = Some RNull.
Proof. reflexivity. Qed.

Example LinkCard_card_in_icon :
  count_type Card
    (LinkCard {| icon := Some (RElement Card [] []); path := "/a"; title := "A" |})
  = 2%nat.
Proof. reflexivity. Qed.

End LinkCardFacts.

(** ** The theme configuration *)

Section ThemeConfigFacts.

Local Open Scope Z_scope.

Lemma footer_text_inj (now now' : Date) :
  text (footer (config now)) = text (footer (config now')) ->
  getFullYear now = getFullYear now'.
Proof.
  cbn [config footer text]. intros H.
  apply NumberToString_inj.
  revert H. generalize (NumberToString (getFullYear now)).
  generalize (NumberToString (getFullYear now')).
  intros s s' H. cbn in H. now inversion H.
Qed.

(** C10.  The footer text is ["ORX Travel API "] followed by the year
    [new Date().getFullYear()] gave when the module was evaluated, written
    in decimal: a minus sign when the year is negative, then one or more
    decimal digits and nothing else, with a leading zero only for the year
    0; read back as a number the digits give the magnitude of the year.
    The digits are four exactly when that magnitude is between 1000 and
    9999.  Module evaluations in different years give different footer
    texts, so no single text is the footer of every evaluation.
    [useNextSeoProps] returns [{ titleTemplate: "%s - ORX API" }] on every
    call, whenever the module was evaluated. *)
Theorem footer_text_follows_clock :
  (forall now,
      exists c rest,
        text (footer (config now))
        = ("ORX Travel API "
             ++ (if (getFullYear now <? 0)%Z then "-" else "")
             ++ String c rest)%string
        /\ forallb is_digit (c :: list_ascii_of_string rest) = true
        /\ (c = "0"%char -> getFullYear now = 0 /\ rest = ""%string)
        /\ parse_int (String c rest) = Z.abs (getFullYear now)
        /\ (String.length (String c rest) = 4%nat
            <-> 1000 <= Z.abs (getFullYear now) <= 9999))
  /\ (forall now now',
        getFullYear now <> getFullYear now' ->
        text (footer (config now)) <> text (footer (config now')))
  /\ ~ (exists fixed, forall now, text (footer (config now)) = fixed)
  /\ (forall now now' u u',
        useNextSeoProps (config now) u = {| titleTemplate := "%s - ORX API" |}
        /\ useNextSeoProps (config now) u = useNextSeoProps (config now') u').
Proof.
  split.
  { intros now. set (y := getFullYear now).
    destruct (digits_string_canonical (Z.abs y) (Z.abs_nonneg y))
      as (c & rest & Hstr & Hdigits & Hzero & Hparse).
    pose proof (digits_string_four (Z.abs y) (Z.abs_nonneg y)) as Hfour.
    rewrite Hstr in Hfour.
    exists c, rest.
    split.
    { cbn [config footer text]. fold y. unfold NumberToString.
      destruct (Z.ltb_spec y 0) as [Hneg|Hpos].
      - replace (- y) with (Z.abs y) by lia. now rewrite Hstr.
      - replace y with (Z.abs y) at 1 by lia. now rewrite Hstr. }
    split; [exact Hdigits|].
    split; [|split; [exact Hparse | exact Hfour]].
    intros Hc. destruct (Hzero Hc) as [Habs Hrest]. split; [lia | exact Hrest]. }
  split.
  { intros now now' Hne Heq. apply Hne, footer_text_inj, Heq. }
  split.
  { intros [fixed Hfixed].
    assert (H : getFullYear (mkDate 2023) = getFullYear (mkDate 2024)).
    { apply footer_text_inj. now rewrite !Hfixed. }
    discriminate H. }
  intros now now' u u'. split; reflexivity.
Qed.

Lemma footer_text_follows_clock_witness :
  text (footer (config (mkDate 2026))) <> text (footer (config (mkDate 2027))).
Proof.
  apply (proj1 (proj2 footer_text_follows_clock) (mkDate 2026) (mkDate 2027)).
  simpl. lia.
Defined.

(** C10, as it was stated.  The year is not always written with four
    digits: a module evaluated in the year 10000 has the footer text
    ["ORX Travel API 10000"], and no four characters after the prefix make
    up that text. *)
Lemma footer_year_10000_has_five_digits :
  text (footer (config (mkDate 10000))) = "ORX Travel API 10000"%string
  /\ ~ (exists year : string,
          text (footer (config (mkDate 10000)))
          = ("ORX Travel API " ++ year)%string
          /\ String.length year = 4%nat).
Proof.
  split; [reflexivity|].
  intros (year & Htext & Hlen).
  change (text (footer (config (mkDate 10000))))
    with ("ORX Travel API " ++ "10000")%string in Htext.
  cbn [append] in Htext.
  inversion Htext as [Hyear]. rewrite <- Hyear in Hlen.
  discriminate Hlen.
Qed.

Example footer_text_2026 :
  text (footer (config (mkDate 2026))) = "ORX Travel API 2026"%string.
Proof. reflexivity. Qed.

Example footer_text_year_10000 :
  text (footer (config (mkDate 10000))) = "ORX Travel API 10000"%string.
Proof. reflexivity. Qed.

End ThemeConfigFacts.

(** ** Further properties of the link card *)

Section LinkCardEquality.

(** Two invocations of [LinkCard] return the same tree exactly when they
    agree on the path, on the title and on the icon that takes effect
    (the given one, or [defaultIcon] when none is given).  So the tree
    determines the path and the title, and leaving the icon out cannot be
    told from passing [defaultIcon]. *)
Theorem LinkCard_eq_iff (a b : LinkCardProps) :
  (LinkCard a = LinkCard b
   <-> path a = path b /\ title a = title b
       /\ icon_or_default (icon a) = icon_or_default (icon b))
  /\ LinkCard {| icon := None; path := path a; title := title a |}
     = LinkCard {| icon := Some defaultIcon; path := path a; title := title a |}.
Proof.
  split; [|reflexivity].
  unfold LinkCard. split.
  - intros H. injection H as Hicon Htitle Hpath. auto.
  - intros (Hpath & Htitle & Hicon). now rewrite Hpath, Htitle, Hicon.
Qed.

Lemma LinkCard_eq_iff_witness :
  LinkCard {| icon := None; path := "/guides"; title := "Guides" |}
  = LinkCard {| icon := Some defaultIcon; path := "/guides"; title := "Guides" |}.
Proof.
  apply (proj2 (proj1 (LinkCard_eq_iff
                         {| icon := None; path := "/guides"; title := "Guides" |}
                         {| icon := Some defaultIcon; path := "/guides";
                            title := "Guides" |}))).
  cbn. repeat split.
Defined.

End LinkCardEquality.

(** ** Further properties of the theme configuration *)

Section ThemeConfigClock.

Local Open Scope Z_scope.

(** For a year that is not negative, the footer text is the fixed prefix
    followed by decimal digits only, at least one of them, with a leading
    zero only when the year is 0 (written as the single digit); read back
    as a number, the digits give the year. *)
Theorem footer_text_is_prefix_then_digits (now : Date) :
  0 <= getFullYear now ->
  exists c rest,
    text (footer (config now)) = ("ORX Travel API " ++ String c rest)%string
    /\ forallb is_digit (c :: list_ascii_of_string rest) = true
    /\ (c = "0"%char -> getFullYear now = 0 /\ rest = ""%string)
    /\ parse_int (String c rest) = getFullYear now.
Proof.
  intros Hy. set (y := getFullYear now) in *.
  assert (Hrange : Forall (fun d => 0 <= d < 10) (rev (digits_le (digit_fuel y) y)))
    by apply Forall_rev, digits_le_range.
  destruct (digits_le_leading (Z.to_nat (Z.log2 y)) y) as (d & ds & Hrev & Hzero).
  { split; [assumption | apply (digit_fuel_enough y Hy)]. }
  fold (digit_fuel y) in Hrev. rewrite Hrev in Hrange.
  assert (Hstr : NumberToString y
                 = String (digit_char d) (string_of_list_ascii (map digit_char ds))).
  { unfold NumberToString. destruct (Z.ltb_spec y 0); [lia|].
    unfold digits_string. now rewrite Hrev. }
  exists (digit_char d), (string_of_list_ascii (map digit_char ds)).
  inversion Hrange as [|d0 ds0 Hd Hds]; subst.
  split; [cbn [config footer text]; fold y; now rewrite Hstr|].
  split.
  { rewrite list_ascii_of_string_of_list_ascii. cbn [forallb].
    rewrite is_digit_digit_char by assumption. cbn [andb].
    apply forallb_forall. intros c Hc. apply in_map_iff in Hc.
    destruct Hc as (e & <- & He). apply is_digit_digit_char.
    rewrite Forall_forall in Hds. now apply Hds. }
  split.
  { intros Hc. apply digit_char_zero in Hc; [|assumption].
    destruct (Hzero Hc) as [-> ->]. split; reflexivity. }
  rewrite <- Hstr. apply parse_NumberToString.
Qed.

Lemma footer_text_is_prefix_then_digits_witness :
  exists c rest,
    text (footer (config (mkDate 2026))) = ("ORX Travel API " ++ String c rest)%string
    /\ forallb is_digit (c :: list_ascii_of_string rest) = true
    /\ (c = "0"%char -> getFullYear (mkDate 2026) = 0 /\ rest = ""%string)
    /\ parse_int (String c rest) = getFullYear (mkDate 2026).
Proof.
  apply (footer_text_is_prefix_then_digits (mkDate 2026)).
  simpl. lia.
Defined.

(** A year with [k + 1] decimal digits gives a footer text of
    [15 + (k + 1)] characters. *)
Theorem footer_text_length (now : Date) (k : nat) :
  10 ^ Z.of_nat k <= getFullYear now < 10 ^ Z.of_nat (S k) ->
  String.length (text (footer (config now))) = (15 + S k)%nat.
Proof.
  intros Hy. cbn [config footer text].
  rewrite <- (NumberToString_length k (getFullYear now) Hy).
  reflexivity.
Qed.

Lemma footer_text_length_witness :
  String.length (text (footer (config (mkDate 2026)))) = (15 + 4)%nat.
Proof.
  apply (footer_text_length (mkDate 2026) 3).
  simpl. lia.
Defined.

End ThemeConfigClock.
